(** * data_handling.data_io: a shallow embedding

    The module [data_io] is a format-agnostic facade over tabular data: a
    registry ([_IOFactory]) maps a format tag to a reader class and to a writer
    class, four reference strategies ([_SqlReader], [_SqlWriter], [_CsvReader],
    [_CsvWriter]) are registered at import time, and [load_data] / [save_data]
    resolve the tag and delegate.

    The Python code is embedded as state-passing functions that may raise.
    Its collaborators are modelled next to it:
    - [os.path.dirname], [os.path.exists], [os.makedirs] and the opening of a
      file, over a tree of directories and regular files;
    - [print] and the calls into the table library, as entries of a call log;
    - the CSV text codec of the table library, which the repository does not
      contain, as an interface ([TableLibrary]). *)

From Stdlib Require Import Ascii String ZArith.
From stdpp Require Import base option list gmap strings pretty.

Local Open Scope string_scope.
Local Open Scope Z_scope.
Local Open Scope list_scope.

(** ** Python values, truthiness and [str()] *)

Inductive Value : Type :=
  | VNone
  | VBool (b : bool)
  | VInt (n : Z)
  | VStr (s : string).

#[global] Instance Value_eq_dec : EqDecision Value.
Proof. solve_decision. Defined.

(** [bool(v)]: [None], [False], [0] and [''] are falsy. *)
Definition py_truthy (v : Value) : bool :=
  match v with
  | VNone => false
  | VBool b => b
  | VInt n => negb (n =? 0)
  | VStr s => negb (String.eqb s "")
  end.

(** [str(v)], as an f-string field formats it. *)
Definition py_str (v : Value) : string :=
  match v with
  | VNone => "None"
  | VBool true => "True"
  | VBool false => "False"
  | VInt n => pretty n
  | VStr s => s
  end.

(** A keyword-argument bag [**kwargs]. *)
Abbreviation Kwargs := (gmap string Value).

(** [kwargs.get(key)] and [kwargs.get(key, default)]. *)
Definition kwargs_get (kwargs : Kwargs) (key : string) : Value :=
  default VNone (kwargs !! key).

Definition kwargs_get_default (kwargs : Kwargs) (key : string) (d : Value) : Value :=
  default d (kwargs !! key).

(** [kwargs.pop(key, default)]: the value and the bag without the key. *)
Definition kwargs_pop (kwargs : Kwargs) (key : string) (d : Value) : Value * Kwargs :=
  (default d (kwargs !! key), delete key kwargs).

(** ** Exceptions *)

Inductive ExcClass : Type :=
  | ValueError
  | KeyError
  | TypeError
  | OSError
  | FileNotFoundError
  | FileExistsError
  | NotADirectoryError
  | IsADirectoryError
  | OtherException (name : string).

#[global] Instance ExcClass_eq_dec : EqDecision ExcClass.
Proof. solve_decision. Defined.

Record Exc : Type := mkExc { exc_class : ExcClass; exc_msg : string }.

#[global] Instance Exc_eq_dec : EqDecision Exc.
Proof. solve_decision. Defined.

Inductive Result (A : Type) : Type :=
  | Ok (a : A)
  | Raise (e : Exc).
Arguments Ok {A} a.
Arguments Raise {A} e.

(** ** The table value *)

(** A [pd.DataFrame]: row labels and named columns of cells. *)
Record DataFrame : Type := mkDataFrame {
  df_index : list Value;
  df_columns : list (string * list Value)
}.

#[global] Instance DataFrame_eq_dec : EqDecision DataFrame.
Proof. solve_decision. Defined.

(** [pd.DataFrame({name: cells, ...})]: the columns in dictionary order under
    the default row labels 0, 1, ... *)
Definition pd_DataFrame (data : list (string * list Value)) : DataFrame :=
  let rows := match data with [] => 0%nat | (_, cells) :: _ => length cells end in
  {| df_index := VInt <$> seqZ 0 (Z.of_nat rows); df_columns := data |}.

(** ** posixpath *)

Module posixpath.

Definition sep : ascii := "/"%char.

Definition is_sep (c : ascii) : bool := Ascii.eqb c sep.

(** [p[:p.rfind('/') + 1]]: the text up to and including the last
    separator, empty when there is none. *)
Fixpoint head_through_sep (p : list ascii) : list ascii :=
  match p with
  | [] => []
  | c :: r =>
      match head_through_sep r with
      | [] => if is_sep c then [c] else []
      | h => c :: h
      end
  end.

Fixpoint lstrip_sep (p : list ascii) : list ascii :=
  match p with
  | [] => []
  | c :: r => if is_sep c then lstrip_sep r else p
  end.

(** [head.rstrip('/')] *)
Definition rstrip_sep (p : list ascii) : list ascii :=
  rev (lstrip_sep (rev p)).

(** [os.path.dirname(p)]:
    [i = p.rfind('/') + 1; head = p[:i];
     if head and head != '/' * len(head): head = head.rstrip('/')]. *)
Definition dirname_chars (p : list ascii) : list ascii :=
  let head := head_through_sep p in
  if forallb is_sep head then head else rstrip_sep head.

Definition dirname (p : string) : string :=
  string_of_list_ascii (dirname_chars (list_ascii_of_string p)).

(** [p.split('/')] *)
Fixpoint split_chars (p : list ascii) : list (list ascii) :=
  match p with
  | [] => [[]]
  | c :: r =>
      if is_sep c then [] :: split_chars r
      else match split_chars r with
           | [] => [[c]]
           | h :: t => (c :: h) :: t
           end
  end.

Definition components (p : string) : list string :=
  string_of_list_ascii <$> split_chars (list_ascii_of_string p).

End posixpath.

(** ** The file tree

    A tree of directories and regular files without symbolic links or
    permissions.  A location is the list of names from the root; the root is
    always a directory, and the working directory of the process is the root,
    so a relative path and the same path with a leading separator name the
    same location. *)

Inductive Node : Type :=
  | Dir
  | File (content : string).

Abbreviation Loc := (list string).
Abbreviation FS := (gmap (list string) Node).

Inductive Errno : Type := ENOENT | ENOTDIR | EISDIR | EEXIST.

Module os.

Definition node_at (fs : FS) (loc : Loc) : option Node :=
  match loc with
  | [] => Some Dir
  | _ => fs !! loc
  end.


(** One component of a path, taken from a directory: an empty component and
    [.] stay, [..] goes to the parent (the root is its own parent), a name goes
    down. *)
Definition step (loc : Loc) (c : string) : Loc :=
  if decide (c = "" ∨ c = ".") then loc
  else if decide (c = "..") then removelast loc
  else loc ++ [c].

(** Path resolution: every component is looked up in a directory, so each
    location left behind must be one; the location reached need not exist. *)
Fixpoint walk (fs : FS) (loc : Loc) (comps : list string) : Errno + Loc :=
  match comps with
  | [] => inr loc
  | c :: rest =>
      match node_at fs loc with
      | Some Dir => walk fs (step loc c) rest
      | Some (File _) => inl ENOTDIR
      | None => inl ENOENT
      end
  end.

Definition resolve (fs : FS) (p : string) : Errno + Loc :=
  if decide (p = "") then inl ENOENT
  else walk fs [] (posixpath.components p).

(** [os.path.exists(p)]: [stat] succeeds. *)
Definition path_exists (fs : FS) (p : string) : bool :=
  match resolve fs p with
  | inr loc => bool_decide (is_Some (node_at fs loc))
  | inl _ => false
  end.


(** [os.makedirs(name, exist_ok=True)] on the component list: a missing
    directory is created at every step, an existing one is kept, and a regular
    file in the way is an error ([EEXIST] at the leaf, [ENOTDIR] above it). *)
Fixpoint mkdirs (fs : FS) (loc : Loc) (comps : list string) : Errno + FS :=
  match comps with
  | [] => inr fs
  | c :: rest =>
      let loc' := step loc c in
      match node_at fs loc' with
      | None => mkdirs (<[loc' := Dir]> fs) loc' rest
      | Some Dir => mkdirs fs loc' rest
      | Some (File _) => inl (match rest with [] => EEXIST | _ => ENOTDIR end)
      end
  end.

Definition makedirs (fs : FS) (name : string) : Errno + FS :=
  if decide (name = "") then inl ENOENT
  else mkdirs fs [] (posixpath.components name).

(** [open(p, 'w').write(text)]: the file is created or truncated. *)
Definition write_text (fs : FS) (p : string) (text : string) : Errno + FS :=
  match resolve fs p with
  | inl e => inl e
  | inr loc =>
      match node_at fs loc with
      | Some Dir => inl EISDIR
      | _ => inr (<[loc := File text]> fs)
      end
  end.

(** [open(p).read()] *)
Definition read_text (fs : FS) (p : string) : Errno + string :=
  match resolve fs p with
  | inl e => inl e
  | inr loc =>
      match node_at fs loc with
      | Some (File text) => inr text
      | Some Dir => inl EISDIR
      | None => inl ENOENT
      end
  end.

(** The [OSError] subclass and message an errno is raised as. *)
Definition error (e : Errno) (p : string) : Exc :=
  match e with
  | ENOENT => mkExc FileNotFoundError ("[Errno 2] No such file or directory: '" +:+ p +:+ "'")
  | ENOTDIR => mkExc NotADirectoryError ("[Errno 20] Not a directory: '" +:+ p +:+ "'")
  | EISDIR => mkExc IsADirectoryError ("[Errno 21] Is a directory: '" +:+ p +:+ "'")
  | EEXIST => mkExc FileExistsError ("[Errno 17] File exists: '" +:+ p +:+ "'")
  end.

End os.

(** ** The environment and the calls that reach it *)

(** What the module asks of its collaborators, in program order. *)
Inductive Call : Type :=
  | CPrint (line : string)
  | CMakedirs (name : string)
  | CToCsv (df : DataFrame) (target : string) (index : Value) (kwargs : Kwargs)
  | CReadCsv (source : string) (kwargs : Kwargs).

Record Env : Type := mkEnv {
  env_fs : FS;
  env_calls : list Call
}.

(** ** Computations that read and change a state and may raise *)

Definition M (S A : Type) : Type := S → Result A * S.

Definition ret {S A} (a : A) : M S A := λ s, (Ok a, s).

Definition raise {S A} (e : Exc) : M S A := λ s, (Raise e, s).

Definition bind {S A B} (m : M S A) (k : A → M S B) : M S B :=
  λ s, match m s with
       | (Ok a, s') => k a s'
       | (Raise e, s') => (Raise e, s')
       end.

(** [try: m except C as e: h e], with [C] given by the classes it catches. *)
Definition try_except {S A} (m : M S A) (catches : ExcClass → bool)
    (h : Exc → M S A) : M S A :=
  λ s, match m s with
       | (Ok a, s') => (Ok a, s')
       | (Raise e, s') => if catches (exc_class e) then h e s' else (Raise e, s')
       end.

(** [except Exception]: every class of [ExcClass] derives from [Exception]. *)
Definition Exception (c : ExcClass) : bool := true.

Declare Scope py_scope.
Delimit Scope py_scope with py.
Notation "x <- m ;; k" := (bind m (λ x, k))
  (at level 100, m at next level, right associativity) : py_scope.
Notation "m ;;; k" := (bind m (λ _, k))
  (at level 100, right associativity) : py_scope.
Local Open Scope py_scope.

Abbreviation IO := (M Env).

Definition log (c : Call) : IO unit :=
  λ env, (Ok tt, {| env_fs := env_fs env; env_calls := env_calls env ++ [c] |}).

(** [print(line)] *)
Definition print (line : string) : IO unit := log (CPrint line).

(** [os.path.exists(p)] reads the tree and leaves no trace. *)
Definition os_path_exists (p : string) : IO bool :=
  λ env, (Ok (os.path_exists (env_fs env) p), env).

(** [os.makedirs(name, exist_ok=True)] *)
Definition os_makedirs (name : string) : IO unit :=
  log (CMakedirs name) ;;;
  λ env, match os.makedirs (env_fs env) name with
         | inr fs' => (Ok tt, {| env_fs := fs'; env_calls := env_calls env |})
         | inl e => (Raise (os.error e name), env)
         end.

(** ** The table library

    [DataFrame.to_csv] and [pd.read_csv] are not code of the repository.  Their
    text codec is an interface: what text a table is exported as under an
    [index] argument and further options, and what table a text parses to.
    Either may raise.  The file is opened by the calls below, in the library's
    default modes, so options that redirect or reopen the file are outside the
    model. *)
Class TableLibrary : Type := {
  csv_encode : DataFrame → Value → Kwargs → Result string;
  csv_decode : string → Kwargs → Result DataFrame
}.

(** [df.to_csv(target, index=index, **kwargs)] *)
Definition df_to_csv `{TableLibrary} (df : DataFrame) (target : string)
    (index : Value) (kwargs : Kwargs) : IO unit :=
  log (CToCsv df target index kwargs) ;;;
  λ env, match csv_encode df index kwargs with
         | Raise e => (Raise e, env)
         | Ok text =>
             match os.write_text (env_fs env) target text with
             | inr fs' => (Ok tt, {| env_fs := fs'; env_calls := env_calls env |})
             | inl e => (Raise (os.error e target), env)
             end
         end.

(** [pd.read_csv(source, **kwargs)] *)
Definition pd_read_csv `{TableLibrary} (source : string) (kwargs : Kwargs) : IO DataFrame :=
  log (CReadCsv source kwargs) ;;;
  λ env, match os.read_text (env_fs env) source with
         | inl e => (Raise (os.error e source), env)
         | inr text =>
             match csv_decode text kwargs with
             | Raise e => (Raise e, env)
             | Ok df => (Ok df, env)
             end
         end.

(** ** The strategies *)

(** A class that implements [_DataFrameReader]: its name and its [read]. *)
Record ReaderClass : Type := mkReaderClass {
  reader_name : string;
  reader_read : string → Kwargs → IO DataFrame
}.

(** A class that implements [_DataFrameWriter]: its name and its [write]. *)
Record WriterClass : Type := mkWriterClass {
  writer_name : string;
  writer_write : DataFrame → string → Kwargs → IO unit
}.

Module _SqlReader.

(** The frame the reader returns in place of [pd.read_sql]. *)
Definition mock_frame : DataFrame :=
  pd_DataFrame [("id", [VInt 1; VInt 2]); ("name", [VStr "Alice"; VStr "Bob"])].

Definition read (source : string) (kwargs : Kwargs) : IO DataFrame :=
  let query := kwargs_get kwargs "query" in
  if negb (py_truthy query) then
    raise (mkExc ValueError "SQL read requires a 'query' argument.")
  else
    print ("Reading from SQL DB at '" +:+ source +:+ "' with query: " +:+ py_str query) ;;;
    ret mock_frame.

Definition cls : ReaderClass := mkReaderClass "_SqlReader" read.

End _SqlReader.

Module _SqlWriter.

Definition write (df : DataFrame) (target : string) (kwargs : Kwargs) : IO unit :=
  let if_exists := kwargs_get_default kwargs "if_exists" (VStr "fail") in
  print ("Writing to SQL table '" +:+ target +:+ "' (if_exists=" +:+ py_str if_exists +:+ ")...").

Definition cls : WriterClass := mkWriterClass "_SqlWriter" write.

End _SqlWriter.

Module _CsvReader.

Definition read `{TableLibrary} (source : string) (kwargs : Kwargs) : IO DataFrame :=
  found <- os_path_exists source ;;
  if negb found then
    raise (mkExc FileNotFoundError ("The file '" +:+ source +:+ "' does not exist."))
  else
    try_except
      (print ("Reading CSV from '" +:+ source +:+ "'...") ;;;
       pd_read_csv source kwargs)
      Exception
      (λ e, raise (mkExc OSError
                     ("Failed to read CSV from '" +:+ source +:+ "': " +:+ exc_msg e))).

Definition cls `{TableLibrary} : ReaderClass := mkReaderClass "_CsvReader" read.

End _CsvReader.

Module _CsvWriter.

Definition write `{TableLibrary} (df : DataFrame) (target : string) (kwargs : Kwargs) : IO unit :=
  let directory := posixpath.dirname target in
  (if negb (String.eqb directory "") then
     found <- os_path_exists directory ;;
     if negb found then
       print ("Creating directory: " +:+ directory) ;;;
       os_makedirs directory
     else ret tt
   else ret tt) ;;;
  let '(index, kwargs) := kwargs_pop kwargs "index" (VBool false) in
  try_except
    (print ("Writing CSV to '" +:+ target +:+ "'...") ;;;
     df_to_csv df target index kwargs)
    Exception
    (λ e, raise (mkExc OSError
                   ("Failed to write CSV to '" +:+ target +:+ "': " +:+ exc_msg e))).

Definition cls `{TableLibrary} : WriterClass := mkWriterClass "_CsvWriter" write.

End _CsvWriter.

(** ** The process: registry, object identities, environment *)

(** The class attributes [_IOFactory._readers] and [_IOFactory._writers], the
    identity the next object gets, and the environment. *)
Record Process : Type := mkProcess {
  _readers : gmap string ReaderClass;
  _writers : gmap string WriterClass;
  next_id : nat;
  env : Env
}.

(** An object: its identity ([id(obj)]) and its class.  The strategy classes
    define neither [__init__] nor attributes, so an object holds nothing
    else. *)
Record Instance (C : Type) : Type := mkInstance {
  obj_id : nat;
  obj_class : C
}.
Arguments mkInstance {C} obj_id obj_class.
Arguments obj_id {C} _.
Arguments obj_class {C} _.

Abbreviation Py := (M Process).

(** [klass()]: a new object of the class. *)
Definition construct {C} (klass : C) : Py (Instance C) :=
  λ st, (Ok (mkInstance (next_id st) klass),
         {| _readers := _readers st; _writers := _writers st;
            next_id := S (next_id st); env := env st |}).

(** A method body runs on the environment of the process. *)
Definition in_env {A} (m : IO A) : Py A :=
  λ st, let '(r, env') := m (env st) in
        (r, {| _readers := _readers st; _writers := _writers st;
               next_id := next_id st; env := env' |}).

(** [d[key]]: the value, or [KeyError(key)]. *)
Definition getitem {C} (d : Process → gmap string C) (key : string) : Py C :=
  λ st, match d st !! key with
        | Some v => (Ok v, st)
        | None => (Raise (mkExc KeyError ("'" +:+ key +:+ "'")), st)
        end.

Definition is_KeyError (c : ExcClass) : bool :=
  bool_decide (c = KeyError).

Module _IOFactory.

(** [register_reader(format_type)(wrapped_class)] *)
Definition register_reader (format_type : string) (wrapped_class : ReaderClass)
    : Py ReaderClass :=
  λ st, (Ok wrapped_class,
         {| _readers := <[format_type := wrapped_class]> (_readers st);
            _writers := _writers st; next_id := next_id st; env := env st |}).

(** [register_writer(format_type)(wrapped_class)] *)
Definition register_writer (format_type : string) (wrapped_class : WriterClass)
    : Py WriterClass :=
  λ st, (Ok wrapped_class,
         {| _readers := _readers st;
            _writers := <[format_type := wrapped_class]> (_writers st);
            next_id := next_id st; env := env st |}).

Definition get_reader (format_type : string) : Py (Instance ReaderClass) :=
  try_except
    (klass <- getitem _readers format_type ;; construct klass)
    is_KeyError
    (λ _, raise (mkExc ValueError
                   ("No reader registered for format: '" +:+ format_type +:+ "'"))).

Definition get_writer (format_type : string) : Py (Instance WriterClass) :=
  try_except
    (klass <- getitem _writers format_type ;; construct klass)
    is_KeyError
    (λ _, raise (mkExc ValueError
                   ("No writer registered for format: '" +:+ format_type +:+ "'"))).

End _IOFactory.

(** ** The facade *)

Definition load_data (source fmt : string) (kwargs : Kwargs) : Py DataFrame :=
  reader <- _IOFactory.get_reader fmt ;;
  in_env (reader_read (obj_class reader) source kwargs).

Definition save_data (df : DataFrame) (target fmt : string) (kwargs : Kwargs) : Py unit :=
  writer <- _IOFactory.get_writer fmt ;;
  in_env (writer_write (obj_class writer) df target kwargs).

(** The four decorators at import time, in source order. *)
Definition import_module `{TableLibrary} : Py unit :=
  _IOFactory.register_reader "sql" _SqlReader.cls ;;;
  _IOFactory.register_writer "sql" _SqlWriter.cls ;;;
  _IOFactory.register_reader "csv" _CsvReader.cls ;;;
  _IOFactory.register_writer "csv" _CsvWriter.cls ;;;
  ret tt.

(** The process before the module is imported, and after. *)
Definition blank (e : Env) : Process :=
  {| _readers := ∅; _writers := ∅; next_id := 0; env := e |}.

Definition imported `{TableLibrary} (e : Env) : Process :=
  snd (import_module (blank e)).

(** ** A reference codec

    A small comma-separated codec that instantiates [TableLibrary]: a header
    line of column names and one line per row, cells printed by [str] and read
    back as an integer when they are all digits, as a missing value when empty
    and as text otherwise.  It accepts no options.  The concrete runs below use
    it; the theorems hold for every [TableLibrary]. *)
Module plain_csv.

Definition newline : ascii := "010"%char.

Fixpoint split_on (d : ascii) (l : list ascii) : list (list ascii) :=
  match l with
  | [] => [[]]
  | c :: r =>
      if Ascii.eqb c d then [] :: split_on d r
      else match split_on d r with
           | [] => [[c]]
           | h :: t => (c :: h) :: t
           end
  end.

Fixpoint join (d : string) (l : list string) : string :=
  match l with
  | [] => ""
  | [x] => x
  | x :: r => x +:+ d +:+ join d r
  end.

Definition line (cells : list string) : string :=
  join "," cells +:+ String newline "".

Definition row (df : DataFrame) (i : nat) : list Value :=
  (λ col, default VNone (snd col !! i)) <$> df_columns df.

Definition encode (df : DataFrame) (index : Value) (kwargs : Kwargs) : Result string :=
  if decide (kwargs = ∅) then
    let labelled := py_truthy index in
    let header := ((if labelled then [""] else []) ++ (fst <$> df_columns df))%list in
    let rows := imap (λ i label, ((if labelled then [py_str label] else [])
                                    ++ (py_str <$> row df i))%list) (df_index df) in
    Ok (line header +:+ join "" (line <$> rows))
  else Raise (mkExc TypeError "to_csv() got an unexpected keyword argument").

Definition digit (c : ascii) : option Z :=
  let n := Z.of_nat (nat_of_ascii c) in
  if (48 <=? n) && (n <=? 57) then Some (n - 48) else None.

Fixpoint digits (acc : Z) (l : list ascii) : option Z :=
  match l with
  | [] => Some acc
  | c :: r => match digit c with
              | Some d => digits (10 * acc + d) r
              | None => None
              end
  end.

Definition parse_cell (l : list ascii) : Value :=
  match l with
  | [] => VNone
  | _ => match digits 0 l with
         | Some n => VInt n
         | None => VStr (string_of_list_ascii l)
         end
  end.

Definition decode (text : string) (kwargs : Kwargs) : Result DataFrame :=
  if decide (kwargs = ∅) then
    match filter (λ l, l ≠ []) (split_on newline (list_ascii_of_string text)) with
    | [] => Raise (mkExc (OtherException "EmptyDataError") "No columns to parse from file")
    | header :: rows =>
        let cells := (λ r, parse_cell <$> split_on ","%char r) <$> rows in
        let names := string_of_list_ascii <$> split_on ","%char header in
        Ok {| df_index := VInt <$> seqZ 0 (Z.of_nat (length rows));
              df_columns := imap (λ j name, (name, (λ r, default VNone (r !! j)) <$> cells)) names |}
    end
  else Raise (mkExc TypeError "read_csv() got an unexpected keyword argument").

Definition library : TableLibrary :=
  {| csv_encode := encode; csv_decode := decode |}.

End plain_csv.

Definition empty_env : Env := {| env_fs := ∅; env_calls := [] |}.


(** ** Vocabulary of the statements *)

(** [msg] contains [tag] as a substring. *)
Definition mentions (msg tag : string) : Prop :=
  ∃ pre post, msg = pre +:+ tag +:+ post.

(** The arguments of the exports ([to_csv]) in a call log, in order. *)
Definition exports (calls : list Call) : list (DataFrame * string * Value * Kwargs) :=
  omap (λ c, match c with
             | CToCsv df target index kwargs => Some (df, target, index, kwargs)
             | _ => None
             end) calls.

(** The directory part of [_CsvWriter.write]: what precedes the [index]
    default. *)
Definition ensure_directory (target : string) : IO unit :=
  let directory := posixpath.dirname target in
  if negb (String.eqb directory "") then
    found <- os_path_exists directory ;;
    if negb found then
      print ("Creating directory: " +:+ directory) ;;;
      os_makedirs directory
    else ret tt
  else ret tt.

(** The exceptions the two readers raise before they read. *)
Definition missing_query : Exc :=
  mkExc ValueError "SQL read requires a 'query' argument.".

Definition not_found (source : string) : Exc :=
  mkExc FileNotFoundError ("The file '" +:+ source +:+ "' does not exist.").



(** A one-row frame whose row label is not the default one. *)
Definition labelled_frame : DataFrame :=
  {| df_index := [VStr "r1"]; df_columns := [("a", [VInt 1])] |}.

(** A tree whose only node is a regular file, [f]. *)
Definition file_in_the_way : Env :=
  {| env_fs := {[ ["f"] := File "" ]}; env_calls := [] |}.

(** The export part of [_CsvWriter.write]: what follows the directory part,
    with the [index] default applied. *)
Definition export_part `{TableLibrary} (df : DataFrame) (target : string)
    (kwargs : Kwargs) : IO unit :=
  try_except
    (print ("Writing CSV to '" +:+ target +:+ "'...") ;;;
     df_to_csv df target (default (VBool false) (kwargs !! "index")) (delete "index" kwargs))
    Exception
    (λ x, raise (mkExc OSError
                   ("Failed to write CSV to '" +:+ target +:+ "': " +:+ exc_msg x))).


(** The location a path denotes, read component by component. *)
Definition location (p : string) : Loc :=
  foldl os.step [] (posixpath.components p).






(** The reading of the SQL reader as a client of a database: against
    [database], which maps a source and a query to the query's result, the
    reader returns that result for every non-empty query. *)
Definition sql_read_returns_query_result (database : string → Value → DataFrame) : Prop :=
  ∀ source (kwargs : Kwargs) query e,
    kwargs !! "query" = Some query → py_truthy query = true →
    fst (_SqlReader.read source kwargs e) = Ok (database source query).

(** ** The script of the module and the classes of its test

    The lines under [if __name__ == "__main__"] write a small CSV file, load
    it, save it to another folder and remove the first file in a [finally]
    block.  They open and remove files themselves; those two operations act
    on the tree without an entry in the log of the strategies' calls. *)

(** [isinstance(e, OSError)]: [OSError] and the builtin classes below it. *)
Definition is_OSError (c : ExcClass) : bool :=
  match c with
  | OSError | FileNotFoundError | FileExistsError
  | NotADirectoryError | IsADirectoryError => true
  | _ => false
  end.

(** [os.remove(p)] on the tree: a regular file is unlinked. *)
Definition remove_file (fs : FS) (p : string) : Errno + FS :=
  match os.resolve fs p with
  | inl err => inl err
  | inr loc =>
      match os.node_at fs loc with
      | Some (File _) => inr (delete loc fs)
      | Some Dir => inl EISDIR
      | None => inl ENOENT
      end
  end.

Definition os_remove (p : string) : IO unit :=
  λ e, match remove_file (env_fs e) p with
       | inr fs' => (Ok tt, {| env_fs := fs'; env_calls := env_calls e |})
       | inl err => (Raise (os.error err p), e)
       end.

(** [with open(p, "w", encoding="utf-8") as f: f.write(text)] *)
Definition open_write (p text : string) : IO unit :=
  λ e, match os.write_text (env_fs e) p text with
       | inr fs' => (Ok tt, {| env_fs := fs'; env_calls := env_calls e |})
       | inl err => (Raise (os.error err p), e)
       end.

(** [try: body finally: final]: the final part always runs; when it raises,
    its exception replaces the outcome of the body. *)
Definition try_finally {S A} (body : M S A) (final : M S unit) : M S A :=
  λ s, let '(r, s1) := body s in
       match final s1 with
       | (Ok _, s2) => (r, s2)
       | (Raise x, s2) => (Raise x, s2)
       end.

Definition line_feed : string := String "010"%char "".

Definition dummy_input_path : string := "input_data.csv".
Definition dummy_output_path : string := "output_folder/processed_data.csv".

Definition dummy_input_text : string :=
  "id,name,role" +:+ line_feed +:+ "101,Neo,The One" +:+ line_feed +:+ "102,Trinity,Hacker".

(** The script.  [frame_str] is [str] of a frame, which the table library
    defines. *)
Definition main `{TableLibrary} (frame_str : DataFrame → string) : Py unit :=
  in_env (open_write dummy_input_path dummy_input_text) ;;;
  try_finally
    (in_env (print "--- Step 1: Reading ---") ;;;
     data <- load_data dummy_input_path "csv" ∅ ;;
     in_env (print ("Data Loaded:" +:+ line_feed +:+ frame_str data +:+ line_feed)) ;;;
     in_env (print "--- Step 2: Writing ---") ;;;
     save_data data dummy_output_path "csv" ∅ ;;;
     found <- in_env (os_path_exists dummy_output_path) ;;
     if found then in_env (print ("Success! File created at: " +:+ dummy_output_path))
     else ret tt)
    (found <- in_env (os_path_exists dummy_input_path) ;;
     if found then in_env (os_remove dummy_input_path) else ret tt).

(** The two blocks of the script: what [try] protects and what [finally]
    runs. *)
Definition main_body `{TableLibrary} (frame_str : DataFrame → string) : Py unit :=
  in_env (print "--- Step 1: Reading ---") ;;;
  data <- load_data dummy_input_path "csv" ∅ ;;
  in_env (print ("Data Loaded:" +:+ line_feed +:+ frame_str data +:+ line_feed)) ;;;
  in_env (print "--- Step 2: Writing ---") ;;;
  save_data data dummy_output_path "csv" ∅ ;;;
  found <- in_env (os_path_exists dummy_output_path) ;;
  if found then in_env (print ("Success! File created at: " +:+ dummy_output_path))
  else ret tt.

Definition main_cleanup : Py unit :=
  found <- in_env (os_path_exists dummy_input_path) ;;
  if found then in_env (os_remove dummy_input_path) else ret tt.

(** The two calls of the reader once the path exists, and the exceptions the
    reader and the writer wrap a failure into. *)
Definition reading (source : string) (kwargs : Kwargs) : list Call :=
  [CPrint ("Reading CSV from '" +:+ source +:+ "'..."); CReadCsv source kwargs].

Definition read_failure (source cause : string) : Exc :=
  mkExc OSError ("Failed to read CSV from '" +:+ source +:+ "': " +:+ cause).

Definition write_failure (target cause : string) : Exc :=
  mkExc OSError ("Failed to write CSV to '" +:+ target +:+ "': " +:+ cause).

(** The two calls of the export part under any options. *)
Definition exporting (df : DataFrame) (target : string) (kwargs : Kwargs) : list Call :=
  [CPrint ("Writing CSV to '" +:+ target +:+ "'...");
   CToCsv df target (default (VBool false) (kwargs !! "index")) (delete "index" kwargs)].

(** The classes [test_custom_extension_registration] registers under
    ["json"]. *)
Module JsonReader.

Definition read (source : string) (kwargs : Kwargs) : IO DataFrame :=
  ret (pd_DataFrame [("source", [VStr source])]).

Definition cls : ReaderClass := mkReaderClass "JsonReader" read.

End JsonReader.

Module JsonWriter.

Definition write (df : DataFrame) (target : string) (kwargs : Kwargs) : IO unit :=
  ret tt.

Definition cls : WriterClass := mkWriterClass "JsonWriter" write.

End JsonWriter.

(** * Properties *)

(** ** Sanity checks of the collaborator models *)

Example dirname_nested :
  posixpath.dirname "output_folder/processed_data.csv" = "output_folder".
Proof. reflexivity. Qed.

Example dirname_bare : posixpath.dirname "input_data.csv" = "".
Proof. reflexivity. Qed.

Example dirname_root : posixpath.dirname "/" = "/".
Proof. reflexivity. Qed.

Example dirname_rootfile : posixpath.dirname "/x" = "/".
Proof. reflexivity. Qed.

Example dirname_slashes : posixpath.dirname "a//b" = "a".
Proof. reflexivity. Qed.

Example dirname_trailing : posixpath.dirname "a/b/" = "a/b".
Proof. reflexivity. Qed.

Example components_ex : posixpath.components "/a//b/" = [""; "a"; ""; "b"; ""].
Proof. reflexivity. Qed.

Example exists_empty_path : os.path_exists ∅ "" = false.
Proof. reflexivity. Qed.

Example exists_root : os.path_exists ∅ "/" = true.
Proof. reflexivity. Qed.

Example mock_frame_value :
  _SqlReader.mock_frame
  = {| df_index := [VInt 0; VInt 1];
       df_columns := [("id", [VInt 1; VInt 2]); ("name", [VStr "Alice"; VStr "Bob"])] |}.
Proof. reflexivity. Qed.

(** ** The registry *)

Section registry.

Implicit Types (st : Process) (tag : string).

Lemma get_reader_hit tag klass st :
  _readers st !! tag = Some klass →
  _IOFactory.get_reader tag st
  = (Ok (mkInstance (next_id st) klass),
     {| _readers := _readers st; _writers := _writers st;
        next_id := S (next_id st); env := env st |}).
Proof.
  intros Hk. unfold _IOFactory.get_reader, try_except, bind, getitem.
  by rewrite Hk.
Qed.

Lemma get_writer_hit tag klass st :
  _writers st !! tag = Some klass →
  _IOFactory.get_writer tag st
  = (Ok (mkInstance (next_id st) klass),
     {| _readers := _readers st; _writers := _writers st;
        next_id := S (next_id st); env := env st |}).
Proof.
  intros Hk. unfold _IOFactory.get_writer, try_except, bind, getitem.
  by rewrite Hk.
Qed.

Lemma get_reader_miss tag st :
  _readers st !! tag = None →
  _IOFactory.get_reader tag st
  = (Raise (mkExc ValueError ("No reader registered for format: '" +:+ tag +:+ "'")), st).
Proof.
  intros Hk. unfold _IOFactory.get_reader, try_except, bind, getitem.
  by rewrite Hk.
Qed.

Lemma get_writer_miss tag st :
  _writers st !! tag = None →
  _IOFactory.get_writer tag st
  = (Raise (mkExc ValueError ("No writer registered for format: '" +:+ tag +:+ "'")), st).
Proof.
  intros Hk. unfold _IOFactory.get_writer, try_except, bind, getitem.
  by rewrite Hk.
Qed.

Lemma load_data_hit tag klass source kwargs st :
  _readers st !! tag = Some klass →
  load_data source tag kwargs st
  = in_env (reader_read klass source kwargs)
      {| _readers := _readers st; _writers := _writers st;
         next_id := S (next_id st); env := env st |}.
Proof.
  intros Hk. unfold load_data, bind. by rewrite (get_reader_hit _ _ _ Hk).
Qed.

Lemma save_data_hit tag klass df target kwargs st :
  _writers st !! tag = Some klass →
  save_data df target tag kwargs st
  = in_env (writer_write klass df target kwargs)
      {| _readers := _readers st; _writers := _writers st;
         next_id := S (next_id st); env := env st |}.
Proof.
  intros Hk. unfold save_data, bind. by rewrite (get_writer_hit _ _ _ Hk).
Qed.

End registry.

Lemma imported_readers `{TableLibrary} e :
  _readers (imported e) = <["csv" := _CsvReader.cls]> (<["sql" := _SqlReader.cls]> ∅).
Proof. reflexivity. Qed.

Lemma imported_writers `{TableLibrary} e :
  _writers (imported e) = <["csv" := _CsvWriter.cls]> (<["sql" := _SqlWriter.cls]> ∅).
Proof. reflexivity. Qed.

Lemma imported_sql_reader `{TableLibrary} e :
  _readers (imported e) !! "sql" = Some _SqlReader.cls.
Proof. rewrite imported_readers. by simplify_map_eq. Qed.

Lemma imported_sql_writer `{TableLibrary} e :
  _writers (imported e) !! "sql" = Some _SqlWriter.cls.
Proof. rewrite imported_writers. by simplify_map_eq. Qed.

Lemma imported_csv_reader `{TableLibrary} e :
  _readers (imported e) !! "csv" = Some _CsvReader.cls.
Proof. rewrite imported_readers. by simplify_map_eq. Qed.

Lemma imported_csv_writer `{TableLibrary} e :
  _writers (imported e) !! "csv" = Some _CsvWriter.cls.
Proof. rewrite imported_writers. by simplify_map_eq. Qed.

Lemma mentions_quoted (pre tag post : string) : mentions (pre +:+ tag +:+ post) tag.
Proof. by exists pre, post. Qed.

(** C4. A tag with no registered reader makes [get_reader], and so
    [load_data], raise [ValueError] (the spec's UnknownFormat) with a message
    that contains the tag, and nothing else happens; the same holds for a tag
    with no registered writer, [get_writer] and [save_data]. *)
Theorem unknown_format_names_tag (tag : string) (st : Process) :
  (_readers st !! tag = None →
   ∃ msg, mentions msg tag
     ∧ _IOFactory.get_reader tag st = (Raise (mkExc ValueError msg), st)
     ∧ ∀ source kwargs,
         load_data source tag kwargs st = (Raise (mkExc ValueError msg), st))
  ∧ (_writers st !! tag = None →
     ∃ msg, mentions msg tag
       ∧ _IOFactory.get_writer tag st = (Raise (mkExc ValueError msg), st)
       ∧ ∀ df target kwargs,
           save_data df target tag kwargs st = (Raise (mkExc ValueError msg), st)).
Proof.
  split; intros Hmiss.
  - exists ("No reader registered for format: '" +:+ tag +:+ "'").
    split; [apply mentions_quoted|].
    pose proof (get_reader_miss tag st Hmiss) as Hget.
    split; [exact Hget|].
    intros source kwargs. unfold load_data, bind. by rewrite Hget.
  - exists ("No writer registered for format: '" +:+ tag +:+ "'").
    split; [apply mentions_quoted|].
    pose proof (get_writer_miss tag st Hmiss) as Hget.
    split; [exact Hget|].
    intros df target kwargs. unfold save_data, bind. by rewrite Hget.
Qed.

(** After the import, ["unknown_format"] has neither a reader nor a writer. *)
Lemma unknown_format_names_tag_witness :
  (∃ msg, mentions msg "unknown_format"
     ∧ _IOFactory.get_reader "unknown_format" (@imported plain_csv.library empty_env)
       = (Raise (mkExc ValueError msg), @imported plain_csv.library empty_env))
  ∧ (∃ msg, mentions msg "unknown_format"
     ∧ _IOFactory.get_writer "unknown_format" (@imported plain_csv.library empty_env)
       = (Raise (mkExc ValueError msg), @imported plain_csv.library empty_env)).
Proof.
  pose proof (unknown_format_names_tag "unknown_format"
                (@imported plain_csv.library empty_env)) as [Hr Hw].
  split.
  - destruct Hr as (msg & ? & ? & _); [by vm_compute|]. by exists msg.
  - destruct Hw as (msg & ? & ? & _); [by vm_compute|]. by exists msg.
Defined.

(** C5. Registering a reader for a tag that already has one succeeds and
    replaces it: the next [get_reader] of the tag returns an instance of the
    new class, and every other tag and every writer keeps its registration.
    The same holds for writers. *)
Theorem register_last_wins (tag : string) (st : Process) :
  (∀ old new : ReaderClass,
     _readers st !! tag = Some old →
     ∃ st1, _IOFactory.register_reader tag new st = (Ok new, st1)
       ∧ (∃ obj st2, _IOFactory.get_reader tag st1 = (Ok obj, st2) ∧ obj_class obj = new)
       ∧ (∀ other, other ≠ tag → _readers st1 !! other = _readers st !! other)
       ∧ _writers st1 = _writers st)
  ∧ (∀ old new : WriterClass,
       _writers st !! tag = Some old →
       ∃ st1, _IOFactory.register_writer tag new st = (Ok new, st1)
         ∧ (∃ obj st2, _IOFactory.get_writer tag st1 = (Ok obj, st2) ∧ obj_class obj = new)
         ∧ (∀ other, other ≠ tag → _writers st1 !! other = _writers st !! other)
         ∧ _readers st1 = _readers st).
Proof.
  split; intros old new _; eexists; (split; [reflexivity|]); cbn [_readers _writers].
  - split; [|split; [|done]].
    + eexists _, _. split.
      * apply get_reader_hit. cbn. apply lookup_insert_eq.
      * reflexivity.
    + intros other Hne. by apply lookup_insert_ne.
  - split; [|split; [|done]].
    + eexists _, _. split.
      * apply get_writer_hit. cbn. apply lookup_insert_eq.
      * reflexivity.
    + intros other Hne. by apply lookup_insert_ne.
Qed.

(** Re-registering ["sql"] with the CSV strategies after the import: lookups
    of ["sql"] now build the CSV strategies. *)
Lemma register_last_wins_witness :
  (∃ obj st2,
     _IOFactory.get_reader "sql"
       (snd (_IOFactory.register_reader "sql" (@_CsvReader.cls plain_csv.library)
               (@imported plain_csv.library empty_env))) = (Ok obj, st2)
     ∧ obj_class obj = @_CsvReader.cls plain_csv.library)
  ∧ (∃ obj st2,
       _IOFactory.get_writer "sql"
         (snd (_IOFactory.register_writer "sql" (@_CsvWriter.cls plain_csv.library)
                 (@imported plain_csv.library empty_env))) = (Ok obj, st2)
       ∧ obj_class obj = @_CsvWriter.cls plain_csv.library).
Proof.
  pose proof (register_last_wins "sql" (@imported plain_csv.library empty_env)) as [Hr Hw].
  split.
  - destruct (Hr _SqlReader.cls (@_CsvReader.cls plain_csv.library))
      as (st1 & Hreg & Hget & _); [apply imported_sql_reader|].
    by rewrite Hreg.
  - destruct (Hw _SqlWriter.cls (@_CsvWriter.cls plain_csv.library))
      as (st1 & Hreg & Hget & _); [apply imported_sql_writer|].
    by rewrite Hreg.
Defined.



(** ** The SQL strategies *)

(** C2. When the ["query"] option is absent or empty, the SQL reader raises
    [ValueError] (the spec's MissingArgument) and hands the environment back
    as it got it: no call was logged and the file tree is the same, so the
    check precedes every external action.  Through [load_data] the registry
    and the environment are unchanged as well. *)
Theorem sql_read_requires_query (source : string) (kwargs : Kwargs) (e : Env) :
  kwargs !! "query" = None ∨ kwargs !! "query" = Some (VStr "") →
  _SqlReader.read source kwargs e = (Raise missing_query, e)
  ∧ ∀ st, _readers st !! "sql" = Some _SqlReader.cls → env st = e →
      ∃ st', load_data source "sql" kwargs st = (Raise missing_query, st')
        ∧ env st' = e ∧ _readers st' = _readers st ∧ _writers st' = _writers st.
Proof.
  intros Hq.
  assert (_SqlReader.read source kwargs e = (Raise missing_query, e)) as Hread.
  { unfold _SqlReader.read, kwargs_get. by destruct Hq as [-> | ->]. }
  split; [exact Hread|].
  intros st Hsql <-. eexists. split.
  - rewrite (load_data_hit _ _ _ _ _ Hsql). unfold in_env. cbn [env reader_read _SqlReader.cls].
    rewrite Hread. reflexivity.
  - done.
Qed.

(** [load_data("postgres://fake-db", "sql")] and the same with [query=""]. *)
Lemma sql_read_requires_query_witness :
  _SqlReader.read "postgres://fake-db" ∅ empty_env = (Raise missing_query, empty_env)
  ∧ _SqlReader.read "postgres://fake-db" {[ "query" := VStr "" ]} empty_env
    = (Raise missing_query, empty_env).
Proof.
  split.
  - apply (sql_read_requires_query "postgres://fake-db" ∅ empty_env). by left.
  - apply (sql_read_requires_query "postgres://fake-db" {[ "query" := VStr "" ]} empty_env).
    right. by vm_compute.
Defined.

(** C6, as the code has it.  With a non-empty ["query"] the SQL reader never
    reaches a database: it prints one line that names the source and the
    query and returns the fixed two-row demonstration frame
    (id = 1, 2; name = Alice, Bob), whatever the source and the query are. *)
Theorem sql_read_returns_mock (source : string) (kwargs : Kwargs) (query : Value) (e : Env) :
  kwargs !! "query" = Some query → py_truthy query = true →
  _SqlReader.read source kwargs e
  = (Ok (pd_DataFrame [("id", [VInt 1; VInt 2]); ("name", [VStr "Alice"; VStr "Bob"])]),
     {| env_fs := env_fs e;
        env_calls := env_calls e ++
          [CPrint ("Reading from SQL DB at '" +:+ source +:+ "' with query: "
                   +:+ py_str query)] |}).
Proof.
  intros Hq Ht. unfold _SqlReader.read, kwargs_get. rewrite Hq.
  cbv beta iota zeta delta [default from_option id]. rewrite Ht. reflexivity.
Qed.

(** [load_data("postgres://fake-db", "sql", query="SELECT *")] *)
Lemma sql_read_returns_mock_witness :
  fst (_SqlReader.read "postgres://fake-db" {[ "query" := VStr "SELECT *" ]} empty_env)
  = Ok _SqlReader.mock_frame.
Proof.
  rewrite (sql_read_returns_mock "postgres://fake-db" {[ "query" := VStr "SELECT *" ]}
             (VStr "SELECT *") empty_env); [reflexivity | by vm_compute | reflexivity].
Defined.

(** C6, as the claim states it, fails: against a database whose every query
    has an empty result, the reader still returns its two-row frame. *)
Lemma sql_read_ignores_database :
  ¬ sql_read_returns_query_result (λ _ _, pd_DataFrame []).
Proof.
  intros Hclaim.
  specialize (Hclaim "postgres://fake-db" {[ "query" := VStr "SELECT *" ]}
                (VStr "SELECT *") empty_env).
  discriminate Hclaim; by vm_compute.
Qed.

(** C10. The SQL writer returns normally for every table, target and options
    bag, and all it does is print one line: the file tree is the same and the
    log has grown by that line only.  Through [save_data] neither registry
    changes. *)
Theorem sql_write_only_prints (df : DataFrame) (target : string) (kwargs : Kwargs) (e : Env) :
  ∃ line,
    _SqlWriter.write df target kwargs e
    = (Ok tt, {| env_fs := env_fs e; env_calls := env_calls e ++ [CPrint line] |})
    ∧ ∀ st, _writers st !! "sql" = Some _SqlWriter.cls → env st = e →
        ∃ st', save_data df target "sql" kwargs st = (Ok tt, st')
          ∧ _readers st' = _readers st ∧ _writers st' = _writers st
          ∧ env_fs (env st') = env_fs e
          ∧ env_calls (env st') = env_calls e ++ [CPrint line].
Proof.
  eexists. split; [reflexivity|].
  intros st Hsql <-. eexists. split.
  - rewrite (save_data_hit _ _ _ _ _ _ Hsql). reflexivity.
  - done.
Qed.

(** [save_data(df, "users_table", "sql", if_exists="append")] after the
    import. *)
Lemma sql_write_only_prints_witness :
  ∃ st',
    save_data _SqlReader.mock_frame "users_table" "sql" {[ "if_exists" := VStr "append" ]}
      (@imported plain_csv.library empty_env) = (Ok tt, st')
    ∧ env_fs (env st') = ∅
    ∧ env_calls (env st')
      = [CPrint "Writing to SQL table 'users_table' (if_exists=append)..."].
Proof.
  destruct (sql_write_only_prints _SqlReader.mock_frame "users_table"
              {[ "if_exists" := VStr "append" ]} empty_env) as (line & Hwrite & Hsave).
  destruct (Hsave (@imported plain_csv.library empty_env))
    as (st' & Hrun & _ & _ & Hfs & Hcalls); [apply imported_sql_writer | reflexivity |].
  exists st'. split; [exact Hrun|]. split; [exact Hfs|].
  rewrite Hcalls. vm_compute in Hwrite. by injection Hwrite as <-.
Defined.

(** ** The CSV strategies *)

(** C3. When the path does not exist, the CSV reader raises
    [FileNotFoundError] (the spec's SourceNotFound) and hands the environment
    back as it got it: the log has no [read_csv] call, so no read was
    attempted and no table is returned.  The same through [load_data]. *)
Theorem csv_read_missing_source `{TableLibrary}
    (source : string) (kwargs : Kwargs) (e : Env) :
  os.path_exists (env_fs e) source = false →
  _CsvReader.read source kwargs e = (Raise (not_found source), e)
  ∧ ∀ st, _readers st !! "csv" = Some _CsvReader.cls → env st = e →
      ∃ st', load_data source "csv" kwargs st = (Raise (not_found source), st')
        ∧ env st' = e.
Proof.
  intros Hmissing.
  assert (_CsvReader.read source kwargs e = (Raise (not_found source), e)) as Hread.
  { unfold _CsvReader.read, bind, os_path_exists. by rewrite Hmissing. }
  split; [exact Hread|].
  intros st Hcsv <-. eexists. split.
  - rewrite (load_data_hit _ _ _ _ _ Hcsv). unfold in_env.
    cbn [env reader_read _CsvReader.cls]. rewrite Hread. reflexivity.
  - done.
Qed.

(** [load_data("non_existent_ghost_file.csv", "csv")] in an empty tree. *)
Lemma csv_read_missing_source_witness :
  @_CsvReader.read plain_csv.library "non_existent_ghost_file.csv" ∅ empty_env
  = (Raise (not_found "non_existent_ghost_file.csv"), empty_env).
Proof.
  apply (@csv_read_missing_source plain_csv.library
           "non_existent_ghost_file.csv" ∅ empty_env).
  reflexivity.
Defined.

Section csv_writer.

Context `{TableLibrary}.
Implicit Types (e : Env) (target : string) (df : DataFrame) (kwargs : Kwargs).

(** What the directory part of [write] does, by cases. *)
Lemma ensure_directory_cases target e :
  let directory := posixpath.dirname target in
  let announced :=
    {| env_fs := env_fs e;
       env_calls := env_calls e ++
         [CPrint ("Creating directory: " +:+ directory); CMakedirs directory] |} in
  ((directory = "" ∨ os.path_exists (env_fs e) directory = true)
   ∧ ensure_directory target e = (Ok tt, e))
  ∨ (directory ≠ "" ∧ os.path_exists (env_fs e) directory = false
     ∧ ((∃ fs', os.makedirs (env_fs e) directory = inr fs'
          ∧ ensure_directory target e
            = (Ok tt, {| env_fs := fs'; env_calls := env_calls announced |}))
        ∨ (∃ err, os.makedirs (env_fs e) directory = inl err
             ∧ ensure_directory target e
               = (Raise (os.error err directory), announced)))).
Proof.
  intros directory announced. unfold ensure_directory.
  fold directory. destruct (String.eqb_spec directory "") as [Hd | Hd].
  { left. split; [by left | reflexivity]. }
  cbn [negb]. unfold bind, print, os_makedirs, os_path_exists, bind, log.
  cbn [env_fs env_calls].
  destruct (os.path_exists (env_fs e) directory) eqn:Hex.
  { left. split; [by right | reflexivity]. }
  right. split; [done|]. split; [done|]. cbn [negb].
  destruct (os.makedirs (env_fs e) directory) as [err | fs'] eqn:Hmk.
  - right. exists err. split; [done|]. subst announced.
    by rewrite <- app_assoc.
  - left. exists fs'. split; [done|]. subst announced. cbn [env_calls].
    by rewrite <- app_assoc.
Qed.

Lemma write_parts df target kwargs e :
  _CsvWriter.write df target kwargs e
  = match ensure_directory target e with
    | (Ok _, e1) => export_part df target kwargs e1
    | (Raise x, e1) => (Raise x, e1)
    end.
Proof. reflexivity. Qed.

Lemma export_part_calls df target kwargs e :
  env_calls (snd (export_part df target kwargs e))
  = env_calls e ++
      [CPrint ("Writing CSV to '" +:+ target +:+ "'...");
       CToCsv df target (default (VBool false) (kwargs !! "index")) (delete "index" kwargs)].
Proof.
  unfold export_part, try_except, bind, print, df_to_csv, bind, log, Exception, raise.
  cbn [env_fs env_calls].
  destruct (csv_encode _ _ _) as [text | x]; [|by rewrite <- app_assoc].
  destruct (os.write_text _ _ _); cbn; by rewrite <- app_assoc.
Qed.

(** C8. The export is called once, after the directory part and unless that
    raised.  When the options bag has no ["index"] key it is called with
    [index=False] and the bag as it is; when the bag has the key it is called
    with the caller's value and the rest of the bag. *)
Theorem csv_write_index_default df target kwargs e :
  ∃ new,
    env_calls (snd (_CsvWriter.write df target kwargs e)) = env_calls e ++ new
    ∧ (kwargs !! "index" = None →
       exports new = match fst (ensure_directory target e) with
                     | Ok _ => [(df, target, VBool false, kwargs)]
                     | Raise _ => []
                     end)
    ∧ (∀ v, kwargs !! "index" = Some v →
       exports new = match fst (ensure_directory target e) with
                     | Ok _ => [(df, target, v, delete "index" kwargs)]
                     | Raise _ => []
                     end).
Proof.
  rewrite write_parts.
  destruct (ensure_directory_cases target e)
    as [[_ ->] | (_ & _ & [(fs' & _ & ->) | (err & _ & ->)])]; cbn [fst snd].
  - eexists. split; [apply export_part_calls|].
    split; [intros Hidx | intros v Hidx]; rewrite Hidx; cbn [default from_option id].
    + by rewrite (delete_id _ _ Hidx).
    + reflexivity.
  - eexists. split.
    { rewrite export_part_calls. cbn [env_calls]. rewrite <- app_assoc. reflexivity. }
    split; [intros Hidx | intros v Hidx]; rewrite Hidx; cbn.
    + by rewrite (delete_id _ _ Hidx).
    + reflexivity.
  - eexists. split; [reflexivity|]. by split.
Qed.

End csv_writer.

(** [save_data(df, "output.csv", "csv")] and the same with [index=True]. *)
Lemma csv_write_index_default_witness :
  exports (env_calls (snd (@_CsvWriter.write plain_csv.library
             _SqlReader.mock_frame "output.csv" ∅ empty_env)))
  = [(_SqlReader.mock_frame, "output.csv", VBool false, ∅)]
  ∧ exports (env_calls (snd (@_CsvWriter.write plain_csv.library
               _SqlReader.mock_frame "output.csv" {[ "index" := VBool true ]} empty_env)))
    = [(_SqlReader.mock_frame, "output.csv", VBool true, ∅)].
Proof.
  split.
  - destruct (@csv_write_index_default plain_csv.library
                _SqlReader.mock_frame "output.csv" ∅ empty_env) as (new & -> & Hnone & _).
    cbn [env_calls empty_env app]. rewrite (Hnone eq_refl). reflexivity.
  - destruct (@csv_write_index_default plain_csv.library
                _SqlReader.mock_frame "output.csv" {[ "index" := VBool true ]} empty_env)
      as (new & -> & _ & Hsome).
    cbn [env_calls empty_env app].
    rewrite (Hsome (VBool true)); [|by vm_compute]. by vm_compute.
Defined.

(** ** Paths: how [dirname] and [split] decompose a path *)

Section path_facts.

Import posixpath.

Implicit Types (p h b d : list ascii) (c : ascii).












End path_facts.

(** ** The file tree: resolution, creation of directories, writing *)

Section tree_facts.

Implicit Types (fs : FS) (loc x : Loc) (comps : list string) (n : Node).

Lemma node_at_insert_ne fs x n loc :
  loc ≠ x → os.node_at (<[x := n]> fs) loc = os.node_at fs loc.
Proof.
  intros Hne. destruct loc; [done|]. cbn. by rewrite lookup_insert_ne.
Qed.

Lemma node_at_insert_eq fs x n :
  x ≠ [] → os.node_at (<[x := n]> fs) x = Some n.
Proof. intros Hx. destruct x; [done|]. cbn. apply lookup_insert_eq. Qed.


(** Resolution looks only at directories, so a node that is put where no
    directory was does not change it. *)
Lemma walk_insert fs x n loc comps dest :
  os.node_at fs x ≠ Some Dir →
  os.walk fs loc comps = inr dest →
  os.walk (<[x := n]> fs) loc comps = inr dest.
Proof.
  intros Hx. revert loc. induction comps as [|c rest IH]; intros loc; cbn; [done|].
  destruct (os.node_at fs loc) as [[|text]|] eqn:Hloc; try done.
  intros Hwalk. rewrite node_at_insert_ne, Hloc; [by apply IH | congruence].
Qed.







(** A text written to a path is read back from it, and the path exists. *)
Lemma write_text_read_text fs (p text : string) fs' :
  os.write_text fs p text = inr fs' →
  os.read_text fs' p = inr text ∧ os.path_exists fs' p = true.
Proof.
  unfold os.write_text, os.read_text, os.path_exists, os.resolve.
  destruct (decide (p = "")); [done|].
  destruct (os.walk fs [] (posixpath.components p)) as [err|loc] eqn:Hwalk; [done|].
  intros Hwrite.
  assert (os.node_at fs loc ≠ Some Dir ∧ fs' = <[loc := File text]> fs) as [Hnd ->].
  { destruct (os.node_at fs loc) as [[|old]|]; naive_solver. }
  rewrite (walk_insert _ _ _ _ _ _ Hnd Hwalk).
  assert (loc ≠ []) as Hloc by (by intros ->).
  rewrite (node_at_insert_eq _ _ _ Hloc). split; [done|].
  apply bool_decide_eq_true. by eexists.
Qed.

End tree_facts.

(** ** Paths and the tree together *)

Section path_and_tree.

Import posixpath.

Implicit Types (fs : FS) (target : string).






End path_and_tree.

(** ** Writing and reading CSV files *)

Section csv_files.

Context `{TableLibrary}.
Implicit Types (e : Env) (fs : FS) (target text : string) (df : DataFrame).


Lemma write_text_ok fs target text loc :
  os.resolve fs target = inr loc → os.node_at fs loc ≠ Some Dir →
  os.write_text fs target text = inr (<[loc := File text]> fs).
Proof.
  intros Hres Hnd. unfold os.write_text. rewrite Hres.
  by destruct (os.node_at fs loc) as [[|old]|].
Qed.






End csv_files.

(** ** Concrete runs *)



(** What [save_data] does there: [to_csv] fails to open the directory and
    the writer wraps the failure. *)
Example save_to_root_raises :
  fst (save_data _SqlReader.mock_frame "/" "csv" ∅
         (@imported plain_csv.library empty_env))
  = Raise (mkExc OSError
             "Failed to write CSV to '/': [Errno 21] Is a directory: '/'").
Proof. by vm_compute. Qed.

(** The proviso on the codec matters.  The writer exports without the row
    index, so with the reference codec a frame with row labels of its own
    comes back under the default labels. *)
Example row_labels_do_not_round_trip :
  fst (load_data "t.csv" "csv" ∅
         (snd (save_data labelled_frame "t.csv" "csv" ∅
                 (@imported plain_csv.library empty_env))))
  = Ok {| df_index := [VInt 0]; df_columns := [("a", [VInt 1])] |}.
Proof. by vm_compute. Qed.


Example write_to_created_directory_raises :
  fst (@_CsvWriter.write plain_csv.library _SqlReader.mock_frame "out/" ∅ empty_env)
  = Raise (mkExc OSError
             "Failed to write CSV to 'out/': [Errno 21] Is a directory: 'out/'").
Proof. by vm_compute. Qed.

Example write_below_file_raises :
  fst (@_CsvWriter.write plain_csv.library _SqlReader.mock_frame
         "f/sub/x.csv" ∅ file_in_the_way)
  = Raise (mkExc NotADirectoryError "[Errno 20] Not a directory: 'f/sub'").
Proof. by vm_compute. Qed.


(** * Further properties of the module *)

(** ** The registry and the facade *)

Section facade.

Implicit Types (st : Process) (tag : string).

(** The facade looks at the registry entry of the tag and at the environment,
    and at nothing else of the process. *)
Lemma load_data_depends tag source kwargs st st' :
  _readers st' !! tag = _readers st !! tag → env st' = env st →
  fst (load_data source tag kwargs st') = fst (load_data source tag kwargs st)
  ∧ env (snd (load_data source tag kwargs st')) = env (snd (load_data source tag kwargs st)).
Proof.
  intros Hk He. destruct (_readers st !! tag) as [klass|] eqn:Hst.
  - rewrite (load_data_hit _ klass _ _ st'), (load_data_hit _ klass _ _ st) by done.
    unfold in_env. cbn [env]. rewrite He.
    by destruct (reader_read klass source kwargs (env st)).
  - unfold load_data, bind.
    rewrite (get_reader_miss tag st'), (get_reader_miss tag st) by done. done.
Qed.

Lemma save_data_depends tag df target kwargs st st' :
  _writers st' !! tag = _writers st !! tag → env st' = env st →
  fst (save_data df target tag kwargs st') = fst (save_data df target tag kwargs st)
  ∧ env (snd (save_data df target tag kwargs st'))
    = env (snd (save_data df target tag kwargs st)).
Proof.
  intros Hk He. destruct (_writers st !! tag) as [klass|] eqn:Hst.
  - rewrite (save_data_hit _ klass _ _ _ st'), (save_data_hit _ klass _ _ _ st) by done.
    unfold in_env. cbn [env]. rewrite He.
    by destruct (writer_write klass df target kwargs (env st)).
  - unfold save_data, bind.
    rewrite (get_writer_miss tag st'), (get_writer_miss tag st) by done. done.
Qed.

(** X1. Once a reader class is registered under a tag, new or not,
    [load_data] with that tag is the class's [read] on the source and the
    options as given: it returns or raises what [read] does and leaves the
    environment as [read] leaves it.  [load_data] with any other tag and
    [save_data] with every tag, this one included, behave as before the
    registration: the two registries are independent. *)
Theorem registered_reader_serves_load_data tag (klass : ReaderClass) st :
  ∃ st1, _IOFactory.register_reader tag klass st = (Ok klass, st1)
    ∧ (∀ source kwargs,
         fst (load_data source tag kwargs st1)
         = fst (reader_read klass source kwargs (env st))
         ∧ env (snd (load_data source tag kwargs st1))
           = snd (reader_read klass source kwargs (env st)))
    ∧ (∀ other source kwargs, other ≠ tag →
         fst (load_data source other kwargs st1) = fst (load_data source other kwargs st)
         ∧ env (snd (load_data source other kwargs st1))
           = env (snd (load_data source other kwargs st)))
    ∧ (∀ any df target kwargs,
         fst (save_data df target any kwargs st1) = fst (save_data df target any kwargs st)
         ∧ env (snd (save_data df target any kwargs st1))
           = env (snd (save_data df target any kwargs st))).
Proof.
  eexists. split; [reflexivity|]. split; [|split].
  - intros source kwargs. rewrite (load_data_hit tag klass).
    + unfold in_env. cbn [env]. by destruct (reader_read klass source kwargs (env st)).
    + cbn. apply lookup_insert_eq.
  - intros other source kwargs Hne. apply load_data_depends; [|done].
    cbn. by apply lookup_insert_ne.
  - intros any df target kwargs. by apply save_data_depends.
Qed.

(** X2. The same for writers: once a writer class is registered under a tag,
    [save_data] with that tag is the class's [write] on the table, the target
    and the options as given; [save_data] with any other tag and [load_data]
    with every tag behave as before. *)
Theorem registered_writer_serves_save_data tag (klass : WriterClass) st :
  ∃ st1, _IOFactory.register_writer tag klass st = (Ok klass, st1)
    ∧ (∀ df target kwargs,
         fst (save_data df target tag kwargs st1)
         = fst (writer_write klass df target kwargs (env st))
         ∧ env (snd (save_data df target tag kwargs st1))
           = snd (writer_write klass df target kwargs (env st)))
    ∧ (∀ other df target kwargs, other ≠ tag →
         fst (save_data df target other kwargs st1)
         = fst (save_data df target other kwargs st)
         ∧ env (snd (save_data df target other kwargs st1))
           = env (snd (save_data df target other kwargs st)))
    ∧ (∀ any source kwargs,
         fst (load_data source any kwargs st1) = fst (load_data source any kwargs st)
         ∧ env (snd (load_data source any kwargs st1))
           = env (snd (load_data source any kwargs st))).
Proof.
  eexists. split; [reflexivity|]. split; [|split].
  - intros df target kwargs. rewrite (save_data_hit tag klass).
    + unfold in_env. cbn [env]. by destruct (writer_write klass df target kwargs (env st)).
    + cbn. apply lookup_insert_eq.
  - intros other df target kwargs Hne. apply save_data_depends; [|done].
    cbn. by apply lookup_insert_ne.
  - intros any source kwargs. by apply load_data_depends.
Qed.

End facade.

(** [test_custom_extension_registration]: after [JsonReader] is registered
    under ["json"], [load_data("fake.json", "json")] returns the frame with
    the source in it, and no file was touched. *)
Lemma registered_reader_serves_load_data_witness :
  let st1 := snd (_IOFactory.register_reader "json" JsonReader.cls
                    (@imported plain_csv.library empty_env)) in
  fst (load_data "fake.json" "json" ∅ st1)
  = Ok (pd_DataFrame [("source", [VStr "fake.json"])])
  ∧ env (snd (load_data "fake.json" "json" ∅ st1)) = empty_env.
Proof.
  destruct (registered_reader_serves_load_data "json" JsonReader.cls
              (@imported plain_csv.library empty_env)) as (st1 & Hreg & Hload & _).
  rewrite Hreg. cbn [snd]. destruct (Hload "fake.json" ∅) as [-> ->]. done.
Defined.

(** With only [JsonWriter] registered under ["json"], [save_data] with
    ["json"] returns, while [load_data] with ["json"] still finds no
    reader. *)
Lemma registered_writer_serves_save_data_witness :
  let st1 := snd (_IOFactory.register_writer "json" JsonWriter.cls
                    (@imported plain_csv.library empty_env)) in
  fst (save_data _SqlReader.mock_frame "out.json" "json" ∅ st1) = Ok tt
  ∧ fst (load_data "fake.json" "json" ∅ st1)
    = Raise (mkExc ValueError "No reader registered for format: 'json'").
Proof.
  destruct (registered_writer_serves_save_data "json" JsonWriter.cls
              (@imported plain_csv.library empty_env)) as (st1 & Hreg & Hsave & _ & Hload).
  rewrite Hreg. cbn [snd]. split.
  - by destruct (Hsave _SqlReader.mock_frame "out.json" ∅) as [-> _].
  - by destruct (Hload "json" "fake.json" ∅) as [-> _].
Defined.

(** X3. Right after the import the registered tags are ["csv"] and ["sql"],
    for reading and for writing, and no other: tags are compared as they are
    written, so every other spelling is an unknown format for both facade
    functions. *)
Theorem imported_formats `{TableLibrary} (e : Env) (tag : string) :
  (is_Some (_readers (imported e) !! tag) ↔ tag = "csv" ∨ tag = "sql")
  ∧ (is_Some (_writers (imported e) !! tag) ↔ tag = "csv" ∨ tag = "sql")
  ∧ (tag ≠ "csv" → tag ≠ "sql" →
     (∀ source kwargs,
        fst (load_data source tag kwargs (imported e))
        = Raise (mkExc ValueError ("No reader registered for format: '" +:+ tag +:+ "'")))
     ∧ (∀ df target kwargs,
          fst (save_data df target tag kwargs (imported e))
          = Raise (mkExc ValueError ("No writer registered for format: '" +:+ tag +:+ "'")))).
Proof.
  assert (∀ {C} (a b : C),
            is_Some ((<["csv" := a]> (<["sql" := b]> (∅ : gmap string C))) !! tag)
            ↔ tag = "csv" ∨ tag = "sql") as Hdom.
  { intros C a b. rewrite !lookup_insert. repeat case_decide; subst.
    - split; [by left | by eexists].
    - split; [by right | by eexists].
    - rewrite lookup_empty. split; [by intros [? ?] | by intros [? | ?]]. }
  rewrite imported_readers, imported_writers.
  split; [apply Hdom|]. split; [apply Hdom|].
  intros Hcsv Hsql. split.
  - intros source kwargs. unfold load_data, bind. rewrite get_reader_miss; [done|].
    rewrite imported_readers. by rewrite !lookup_insert_ne, lookup_empty.
  - intros df target kwargs. unfold save_data, bind. rewrite get_writer_miss; [done|].
    rewrite imported_writers. by rewrite !lookup_insert_ne, lookup_empty.
Qed.

(** [load_data(path, "CSV")] after the import: the upper-case tag is unknown. *)
Lemma imported_formats_witness :
  fst (load_data "data.csv" "CSV" ∅ (@imported plain_csv.library empty_env))
  = Raise (mkExc ValueError "No reader registered for format: 'CSV'").
Proof.
  destruct (@imported_formats plain_csv.library empty_env "CSV") as (_ & _ & Hother).
  destruct Hother as [Hload _]; [discriminate | discriminate |]. apply Hload.
Defined.

(** ** The CSV reader *)

Section csv_reader_more.

Context `{TableLibrary}.
Implicit Types (e : Env) (source text : string) (kwargs : Kwargs).

Lemma read_text_exists (fs : FS) source text :
  os.read_text fs source = inr text → os.path_exists fs source = true.
Proof.
  unfold os.read_text, os.path_exists.
  destruct (os.resolve fs source) as [err|loc]; [done|].
  by destruct (os.node_at fs loc) as [[|t]|].
Qed.

(** The reader by cases: the path is missing; or it is there and the library
    is called once, and then the file cannot be read, or its text does not
    parse, or it does. *)
Lemma csv_read_cases source kwargs e :
  let after := {| env_fs := env_fs e; env_calls := env_calls e ++ reading source kwargs |} in
  (os.path_exists (env_fs e) source = false
   ∧ _CsvReader.read source kwargs e = (Raise (not_found source), e))
  ∨ (os.path_exists (env_fs e) source = true
     ∧ ((∃ err, os.read_text (env_fs e) source = inl err
           ∧ _CsvReader.read source kwargs e
             = (Raise (read_failure source (exc_msg (os.error err source))), after))
        ∨ (∃ text x, os.read_text (env_fs e) source = inr text
             ∧ csv_decode text kwargs = Raise x
             ∧ _CsvReader.read source kwargs e
               = (Raise (read_failure source (exc_msg x)), after))
        ∨ (∃ text df, os.read_text (env_fs e) source = inr text
             ∧ csv_decode text kwargs = Ok df
             ∧ _CsvReader.read source kwargs e = (Ok df, after)))).
Proof.
  intros after. unfold _CsvReader.read, bind at 1. unfold os_path_exists.
  destruct (os.path_exists (env_fs e) source) eqn:Hex; [right | by left].
  split; [done|]. cbn [negb].
  unfold try_except, bind, print, pd_read_csv, bind, log, Exception, raise.
  rewrite Hex. cbn [negb env_fs env_calls]. subst after. unfold reading, read_failure.
  rewrite <- app_assoc. cbn [app].
  destruct (os.read_text (env_fs e) source) as [err|text] eqn:Hread.
  { left. by exists err. }
  right. destruct (csv_decode text kwargs) as [df|x] eqn:Hdec.
  - right. by exists text, df.
  - left. by exists text, x.
Qed.

Lemma csv_read_is_read_only_fs source kwargs e :
  env_fs (snd (_CsvReader.read source kwargs e)) = env_fs e.
Proof.
  destruct (csv_read_cases source kwargs e)
    as [[_ ->] | [_ [(err & _ & ->) | [(t & y & _ & _ & ->) | (t & df & _ & _ & ->)]]]];
    done.
Qed.

(** X4. When the source is a regular file, the reader returns exactly the
    table the library parses from the file's text under the caller's options,
    passed on as they are; when the library raises instead, the reader
    raises [OSError] with the path and the library's message.  One
    [read_csv] call is logged. *)
Theorem csv_read_returns_parse source kwargs text e :
  os.read_text (env_fs e) source = inr text →
  fst (_CsvReader.read source kwargs e)
  = match csv_decode text kwargs with
    | Ok df => Ok df
    | Raise x => Raise (read_failure source (exc_msg x))
    end
  ∧ env_calls (snd (_CsvReader.read source kwargs e))
    = env_calls e ++ reading source kwargs.
Proof.
  intros Hread. pose proof (read_text_exists _ _ _ Hread) as Hex.
  destruct (csv_read_cases source kwargs e)
    as [[Hno _] | [_ [(err & Herr & _) | [(t & x & Ht & Hdec & ->) | (t & df & Ht & Hdec & ->)]]]];
    [congruence | congruence | |].
  - assert (t = text) as -> by congruence. by rewrite Hdec.
  - assert (t = text) as -> by congruence. by rewrite Hdec.
Qed.

(** X5. Every exception of the reader is a [FileNotFoundError] for a path
    that does not exist, with the environment untouched, or, for a path that
    exists, an [OSError] whose message contains the path: whatever the
    library raises is wrapped.  Either way a caller that catches [OSError]
    catches it. *)
Theorem csv_read_failures source kwargs e (x : Exc) :
  fst (_CsvReader.read source kwargs e) = Raise x →
  is_OSError (exc_class x) = true
  ∧ ((os.path_exists (env_fs e) source = false ∧ x = not_found source
      ∧ snd (_CsvReader.read source kwargs e) = e)
     ∨ (os.path_exists (env_fs e) source = true ∧ exc_class x = OSError
        ∧ mentions (exc_msg x) source)).
Proof.
  destruct (csv_read_cases source kwargs e)
    as [[Hno ->] | [Hex [(err & _ & ->) | [(t & y & _ & _ & ->) | (t & df & _ & _ & ->)]]]];
    cbn [fst snd]; intros [= <-] || intros [=].
  - split; [done|]. left. done.
  - split; [done|]. right. repeat split; [done|]. apply mentions_quoted.
  - split; [done|]. right. repeat split; [done|]. apply mentions_quoted.
Qed.

(** X6. The reader only reads: whatever the outcome, the file tree is the
    one it started from, and it exports nothing and creates no directory; the
    log grows by nothing (path missing) or by its print and its one
    [read_csv] call. *)
Theorem csv_read_is_read_only source kwargs e :
  env_fs (snd (_CsvReader.read source kwargs e)) = env_fs e
  ∧ (env_calls (snd (_CsvReader.read source kwargs e)) = env_calls e
     ∨ env_calls (snd (_CsvReader.read source kwargs e))
       = env_calls e ++ reading source kwargs).
Proof.
  destruct (csv_read_cases source kwargs e)
    as [[_ ->] | [_ [(err & _ & ->) | [(t & y & _ & _ & ->) | (t & df & _ & _ & ->)]]]];
    cbn [fst snd env_fs env_calls]; split; auto.
Qed.

End csv_reader_more.

(** A file with a header only: the reference codec parses it to a frame with
    three empty columns. *)
Lemma csv_read_returns_parse_witness :
  fst (@_CsvReader.read plain_csv.library "h.csv" ∅
         {| env_fs := {[ ["h.csv"] := File "id,name,role" ]}; env_calls := [] |})
  = Ok {| df_index := []; df_columns := [("id", []); ("name", []); ("role", [])] |}.
Proof.
  destruct (@csv_read_returns_parse plain_csv.library "h.csv" ∅ "id,name,role"
              {| env_fs := {[ ["h.csv"] := File "id,name,role" ]}; env_calls := [] |})
    as [-> _]; [by vm_compute | by vm_compute].
Defined.

(** Reading the root directory: the path exists, the library cannot open it,
    and the reader reports an [OSError] that names the path. *)
Lemma csv_read_failures_witness :
  ∃ x, fst (@_CsvReader.read plain_csv.library "/" ∅ empty_env) = Raise x
    ∧ exc_class x = OSError ∧ mentions (exc_msg x) "/".
Proof.
  exists (read_failure "/" "[Errno 21] Is a directory: '/'").
  destruct (@csv_read_failures plain_csv.library "/" ∅ empty_env
              (read_failure "/" "[Errno 21] Is a directory: '/'"))
    as [_ [(Hno & _) | (_ & Hclass & Hmsg)]]; [by vm_compute | discriminate Hno |].
  split; [by vm_compute | done].
Defined.

(** ** The CSV writer *)

Section csv_writer_more.

Context `{TableLibrary}.
Implicit Types (e : Env) (fs : FS) (target text : string) (df : DataFrame)
  (kwargs : Kwargs) (loc x : Loc).

Lemma walk_location fs loc comps dest :
  os.walk fs loc comps = inr dest → dest = foldl os.step loc comps.
Proof.
  revert loc. induction comps as [|c rest IH]; intros loc; cbn; [congruence|].
  destruct (os.node_at fs loc) as [[|t]|]; try done. apply IH.
Qed.

Lemma resolve_location fs (p : string) loc :
  os.resolve fs p = inr loc → loc = location p.
Proof.
  unfold os.resolve. destruct (decide (p = "")); [done|]. apply walk_location.
Qed.

(** [makedirs] only adds: what was in the tree is still there. *)
Lemma mkdirs_keeps fs loc comps fs' :
  os.mkdirs fs loc comps = inr fs' →
  ∀ x (n : Node), fs !! x = Some n → fs' !! x = Some n.
Proof.
  revert fs loc. induction comps as [|c rest IH]; intros fs loc; cbn.
  { by intros [= <-]. }
  destruct (os.node_at fs (os.step loc c)) as [[|t]|] eqn:Hnext; [by apply IH | done |].
  intros Hmk x n Hx. apply (IH _ _ Hmk).
  rewrite lookup_insert_ne; [done|]. intros <-.
  destruct (os.step loc c); cbn in Hnext; congruence.
Qed.

Lemma ensure_directory_keeps target e :
  ∀ x (n : Node), env_fs e !! x = Some n →
                  env_fs (snd (ensure_directory target e)) !! x = Some n.
Proof.
  intros x n Hx.
  destruct (ensure_directory_cases target e)
    as [[_ ->] | (Hd & _ & [(fs' & Hmk & ->) | (err & _ & ->)])]; cbn [snd env_fs]; try done.
  unfold os.makedirs in Hmk. destruct (decide (posixpath.dirname target = "")); [done|].
  by apply (mkdirs_keeps _ _ _ _ Hmk).
Qed.

(** The export part by cases: the library gives a text and the file is
    written where the target resolves; or something fails and the failure is
    wrapped, the tree staying as it is. *)
Lemma export_part_cases df target kwargs e :
  let index := default (VBool false) (kwargs !! "index") in
  let logged := env_calls e ++ exporting df target kwargs in
  (∃ text loc,
     csv_encode df index (delete "index" kwargs) = Ok text
     ∧ os.resolve (env_fs e) target = inr loc
     ∧ os.node_at (env_fs e) loc ≠ Some Dir
     ∧ export_part df target kwargs e
       = (Ok tt, {| env_fs := <[loc := File text]> (env_fs e); env_calls := logged |}))
  ∨ (∃ cause,
       export_part df target kwargs e
       = (Raise (write_failure target cause), {| env_fs := env_fs e; env_calls := logged |})).
Proof.
  intros index logged. subst index logged.
  unfold export_part, try_except, bind, print, df_to_csv, bind, log, Exception, raise.
  cbn [env_fs env_calls]. unfold exporting, write_failure. rewrite <- app_assoc. cbn [app].
  destruct (csv_encode _ _ _) as [text|y]; [|right; by eexists].
  unfold os.write_text.
  destruct (os.resolve (env_fs e) target) as [err|loc] eqn:Hres; [right; by eexists|].
  destruct (os.node_at (env_fs e) loc) as [[|old]|] eqn:Hnode.
  - right. by eexists.
  - left. exists text, loc. by rewrite Hnode.
  - left. exists text, loc. by rewrite Hnode.
Qed.





End csv_writer_more.

(** The strategy-level facts turned the other way, for use below. *)
Lemma load_data_csv_run `{TableLibrary} (source : string) (kwargs : Kwargs) (st : Process) :
  _readers st !! "csv" = Some _CsvReader.cls →
  ∃ st', load_data source "csv" kwargs st
         = (fst (_CsvReader.read source kwargs (env st)), st')
    ∧ env st' = snd (_CsvReader.read source kwargs (env st))
    ∧ _readers st' = _readers st ∧ _writers st' = _writers st.
Proof.
  intros Hk. rewrite (load_data_hit _ _ _ _ _ Hk). unfold in_env.
  cbn [env reader_read _CsvReader.cls].
  destruct (_CsvReader.read source kwargs (env st)) as [r e']. by eexists.
Qed.

Lemma save_data_csv_run `{TableLibrary} (df : DataFrame) (target : string)
    (kwargs : Kwargs) (st : Process) :
  _writers st !! "csv" = Some _CsvWriter.cls →
  ∃ st', save_data df target "csv" kwargs st
         = (fst (_CsvWriter.write df target kwargs (env st)), st')
    ∧ env st' = snd (_CsvWriter.write df target kwargs (env st))
    ∧ _readers st' = _readers st ∧ _writers st' = _writers st.
Proof.
  intros Hk. rewrite (save_data_hit _ _ _ _ _ _ Hk). unfold in_env.
  cbn [env writer_write _CsvWriter.cls].
  destruct (_CsvWriter.write df target kwargs (env st)) as [r e']. by eexists.
Qed.

Lemma write_frame `{TableLibrary} (df : DataFrame) (target : string) (kwargs : Kwargs)
    (e : Env) (x : Loc) (n : Node) :
  env_fs e !! x = Some n → x ≠ location target →
  env_fs (snd (_CsvWriter.write df target kwargs e)) !! x = Some n.
Proof.
  intros Hx Hne. rewrite write_parts.
  pose proof (ensure_directory_keeps target e x n Hx) as Hkept.
  destruct (ensure_directory target e) as [[[]|y] e1]; cbn [snd] in *; [|done].
  destruct (export_part_cases df target kwargs e1)
    as [(text & loc & _ & Hres & _ & ->) | (cause & ->)]; cbn [snd env_fs]; [|done].
  rewrite lookup_insert_ne; [done|].
  apply resolve_location in Hres. congruence.
Qed.

Lemma write_success_exists `{TableLibrary} (df : DataFrame) (target : string)
    (kwargs : Kwargs) (e e1 : Env) :
  _CsvWriter.write df target kwargs e = (Ok tt, e1) →
  ∃ text,
    csv_encode df (default (VBool false) (kwargs !! "index")) (delete "index" kwargs)
    = Ok text
    ∧ os.read_text (env_fs e1) target = inr text
    ∧ os.path_exists (env_fs e1) target = true.
Proof.
  rewrite write_parts.
  destruct (ensure_directory target e) as [[[]|y] e0]; [|done].
  destruct (export_part_cases df target kwargs e0)
    as [(text & loc & Henc & Hres & Hnd & ->) | (cause & ->)]; [|done].
  intros [= <-]. exists text. split; [done|]. cbn [env_fs].
  apply (write_text_read_text (env_fs e0)). by apply write_text_ok.
Qed.

(** X8. The writer never removes or changes another entry of the tree:
    whatever the outcome, every directory and every file that was there is
    still there with the same content, except the file at the target's own
    location.  The same holds for [save_data] with the CSV writer registered,
    which also leaves both registries as they are. *)
Theorem csv_write_keeps_other_files `{TableLibrary} (df : DataFrame) (target : string)
    (kwargs : Kwargs) (x : Loc) (n : Node) :
  x ≠ location target →
  (∀ e, env_fs e !! x = Some n →
        env_fs (snd (_CsvWriter.write df target kwargs e)) !! x = Some n)
  ∧ (∀ st, _writers st !! "csv" = Some _CsvWriter.cls →
           env_fs (env st) !! x = Some n →
           env_fs (env (snd (save_data df target "csv" kwargs st))) !! x = Some n
           ∧ _readers (snd (save_data df target "csv" kwargs st)) = _readers st
           ∧ _writers (snd (save_data df target "csv" kwargs st)) = _writers st).
Proof.
  intros Hne. split.
  - intros e Hx. by apply write_frame.
  - intros st Hk Hx.
    destruct (save_data_csv_run df target kwargs st Hk) as (st' & -> & Henv & Hr & Hw).
    cbn [snd]. rewrite Henv. split; [by apply write_frame | done].
Qed.






(** Writing next to [f]: the file [f] is kept. *)
Lemma csv_write_keeps_other_files_witness :
  env_fs (snd (@_CsvWriter.write plain_csv.library _SqlReader.mock_frame
                 "out/data.csv" ∅ file_in_the_way)) !! ["f"] = Some (File "").
Proof.
  destruct (@csv_write_keeps_other_files plain_csv.library _SqlReader.mock_frame
              "out/data.csv" ∅ ["f"] (File "")) as [Hwrite _]; [by vm_compute|].
  apply Hwrite. by vm_compute.
Defined.



(** ** The script *)

Section script.

Context `{TableLibrary}.
Variable frame_str : DataFrame → string.

Implicit Types (st : Process) (fs : FS).

Lemma main_parts :
  main frame_str
  = (in_env (open_write dummy_input_path dummy_input_text) ;;;
     try_finally (main_body frame_str) main_cleanup).
Proof. reflexivity. Qed.

Lemma resolve_input fs : os.resolve fs dummy_input_path = inr [dummy_input_path].
Proof. reflexivity. Qed.

Lemma node_at_delete_ne fs (x loc : Loc) :
  loc ≠ x → os.node_at (delete x fs) loc = os.node_at fs loc.
Proof. intros Hne. destruct loc; [done|]. cbn. by rewrite lookup_delete_ne. Qed.

Lemma walk_delete fs (x loc : Loc) comps dest :
  os.node_at fs x ≠ Some Dir →
  os.walk fs loc comps = inr dest → os.walk (delete x fs) loc comps = inr dest.
Proof.
  intros Hx. revert loc. induction comps as [|c rest IH]; intros loc; cbn; [done|].
  destruct (os.node_at fs loc) as [[|text]|] eqn:Hloc; try done.
  intros Hwalk. rewrite node_at_delete_ne, Hloc; [by apply IH | congruence].
Qed.

Lemma path_exists_delete fs (x : Loc) (p : string) :
  os.node_at fs x ≠ Some Dir → x ≠ location p →
  os.path_exists fs p = true → os.path_exists (delete x fs) p = true.
Proof.
  intros Hx Hne. unfold os.path_exists.
  destruct (os.resolve fs p) as [err|loc] eqn:Hres; [done|].
  pose proof (resolve_location _ _ _ Hres) as ->.
  unfold os.resolve in *. destruct (decide (p = "")); [done|].
  rewrite (walk_delete _ _ _ _ _ Hx Hres). by rewrite node_at_delete_ne.
Qed.

(** What the protected block keeps and reaches: the registered CSV
    strategies stay, every entry of the tree other than the output file
    stays, and when the block ends normally the output file exists. *)
Lemma main_body_spec st r st' :
  _readers st !! "csv" = Some _CsvReader.cls →
  _writers st !! "csv" = Some _CsvWriter.cls →
  main_body frame_str st = (r, st') →
  (∀ x (n : Node), x ≠ location dummy_output_path → env_fs (env st) !! x = Some n →
                   env_fs (env st') !! x = Some n)
  ∧ (r = Ok tt → os.path_exists (env_fs (env st')) dummy_output_path = true).
Proof.
  intros Hr Hw Hrun. unfold main_body in Hrun.
  unfold bind at 1 in Hrun. cbn [in_env print log env fst snd] in Hrun.
  unfold bind at 1 in Hrun.
  match type of Hrun with context [load_data _ _ _ ?s] => set (st_b := s) in Hrun end.
  assert (env_fs (env st_b) = env_fs (env st)) as Hfs_b by reflexivity.
  destruct (load_data_csv_run dummy_input_path ∅ st_b) as (st_c & Hload & Henv_c & Hr_c & Hw_c);
    [done|].
  pose proof (csv_read_is_read_only_fs dummy_input_path ∅ (env st_b)) as Hfs_c.
  rewrite <- Henv_c in Hfs_c. rewrite Hload in Hrun.
  destruct (fst (_CsvReader.read dummy_input_path ∅ (env st_b))) as [data|x].
  2:{ injection Hrun as <- <-. split; [|done]. intros x' n _ Hx. by rewrite Hfs_c, Hfs_b. }
  unfold bind at 1 in Hrun. cbn [in_env print log env fst snd] in Hrun.
  unfold bind at 1 in Hrun. cbn [in_env print log env fst snd] in Hrun.
  unfold bind at 1 in Hrun.
  match type of Hrun with context [save_data _ _ _ _ ?s] => set (st_d := s) in Hrun end.
  assert (env_fs (env st_d) = env_fs (env st)) as Hfs_d.
  { subst st_d. cbn [env env_fs]. by rewrite Hfs_c, Hfs_b. }
  destruct (save_data_csv_run data dummy_output_path ∅ st_d)
    as (st_e & Hsave & Henv_e & _).
  { subst st_d. cbn [_writers]. rewrite Hw_c. exact Hw. }
  assert (∀ x (n : Node), x ≠ location dummy_output_path → env_fs (env st) !! x = Some n →
                          env_fs (env st_e) !! x = Some n) as Hkeep.
  { intros x n Hne Hx. rewrite Henv_e. apply write_frame; [|done]. by rewrite Hfs_d. }
  rewrite Hsave in Hrun.
  destruct (_CsvWriter.write data dummy_output_path ∅ (env st_d)) as [[[]|x] e5] eqn:Hwrite;
    cbn [fst snd] in *.
  2:{ injection Hrun as <- <-. split; [|done]. intros x' n. apply Hkeep. }
  destruct (write_success_exists _ _ _ _ _ Hwrite) as (text & _ & _ & Hex).
  unfold bind at 1 in Hrun. unfold in_env at 1, os_path_exists in Hrun.
  rewrite Henv_e, Hex in Hrun. cbn [in_env print log env env_fs fst snd] in Hrun.
  injection Hrun as <- <-. cbn [env env_fs]. split; [|done].
  intros x' n Hne Hx. rewrite <- Henv_e. by apply Hkeep.
Qed.

(** X12. The script cleans up after itself.  Run in a process where ["csv"]
    names the CSV strategies, as right after the import, and in any tree
    where [input_data.csv] is not a directory, it ends, normally or with the
    exception of its loading or saving step, with [input_data.csv] gone (also
    when a file of that name was there before); every other entry of the
    tree except the output file is kept; and when it ends normally the output
    file exists. *)
Theorem main_removes_its_input (st : Process) :
  _readers st !! "csv" = Some _CsvReader.cls →
  _writers st !! "csv" = Some _CsvWriter.cls →
  env_fs (env st) !! [dummy_input_path] ≠ Some Dir →
  ∃ r st', main frame_str st = (r, st')
    ∧ os.path_exists (env_fs (env st')) dummy_input_path = false
    ∧ (r = Ok tt → os.path_exists (env_fs (env st')) dummy_output_path = true)
    ∧ (∀ x (n : Node), x ≠ [dummy_input_path] → x ≠ location dummy_output_path →
                       env_fs (env st) !! x = Some n → env_fs (env st') !! x = Some n).
Proof.
  intros Hr Hw Hnodir. rewrite main_parts. unfold bind at 1.
  unfold in_env at 1, open_write, os.write_text. rewrite resolve_input.
  cbn [os.node_at].
  set (fs0 := <[[dummy_input_path] := File dummy_input_text]> (env_fs (env st))).
  assert (match env_fs (env st) !! [dummy_input_path] with
          | Some Dir => inl EISDIR
          | _ => inr fs0
          end = (inr fs0 : Errno + FS)) as Hopen.
  { by destruct (env_fs (env st) !! [dummy_input_path]) as [[|t]|]. }
  rewrite Hopen. cbn [fst snd].
  match goal with |- context [try_finally _ _ ?s] => set (st_a := s) end.
  unfold try_finally.
  destruct (main_body frame_str st_a) as [r s1] eqn:Hbody.
  destruct (main_body_spec st_a r s1 Hr Hw Hbody) as [Hkeep Hout].
  assert (location dummy_output_path = ["output_folder"; "processed_data.csv"]) as Hloc_out
    by reflexivity.
  assert (env_fs (env s1) !! [dummy_input_path] = Some (File dummy_input_text)) as Hinput.
  { apply Hkeep; [by rewrite Hloc_out|]. apply lookup_insert_eq. }
  unfold main_cleanup, bind, in_env, os_path_exists, os.path_exists.
  rewrite resolve_input. cbn [os.node_at env env_fs]. rewrite Hinput.
  rewrite bool_decide_eq_true_2 by (by eexists).
  unfold os_remove, remove_file. rewrite resolve_input. cbn [os.node_at env env_fs].
  rewrite Hinput.
  eexists _, _. split; [reflexivity|]. cbn [env env_fs]. split; [|split].
  - rewrite resolve_input. cbn [os.node_at]. rewrite lookup_delete_eq.
    apply bool_decide_eq_false. by intros [? ?].
  - intros Hok. apply path_exists_delete; [|by rewrite Hloc_out|by apply Hout].
    cbn [os.node_at]. by rewrite Hinput.
  - intros x n Hne_in Hne_out Hx. rewrite lookup_delete_ne by done.
    apply Hkeep; [done|]. subst st_a fs0. cbn [env env_fs].
    by rewrite lookup_insert_ne.
Qed.

End script.

(** The script after the import, in a tree that already holds an
    [input_data.csv] and a file [notes.txt]: the input is removed and
    [notes.txt] is kept. *)
Lemma main_removes_its_input_witness :
  let e := {| env_fs := {[ ["input_data.csv"] := File "old"; ["notes.txt"] := File "n" ]};
              env_calls := [] |} in
  ∃ r st, @main plain_csv.library (λ _, "") (@imported plain_csv.library e) = (r, st)
    ∧ os.path_exists (env_fs (env st)) "input_data.csv" = false
    ∧ env_fs (env st) !! ["notes.txt"] = Some (File "n").
Proof.
  intros e.
  destruct (@main_removes_its_input plain_csv.library (λ _, "")
              (@imported plain_csv.library e))
    as (r & st & Hrun & Hgone & _ & Hkeep).
  - apply imported_csv_reader.
  - apply imported_csv_writer.
  - vm_compute. discriminate.
  - exists r, st. split; [done|]. split; [done|].
    apply Hkeep; [discriminate | vm_compute; discriminate | vm_compute; reflexivity].
Defined.

(** X13. The calls of one write, in order.  [makedirs] is called exactly when
    the directory part of the target is not empty and does not exist, once,
    after its announcement and before anything else; the export follows
    unless [makedirs] raised; and the writer makes no other call, whatever
    the outcome. *)
Theorem csv_write_call_log `{TableLibrary} (df : DataFrame) (target : string)
    (kwargs : Kwargs) (e : Env) :
  let directory := posixpath.dirname target in
  env_calls (snd (_CsvWriter.write df target kwargs e))
  = env_calls e
    ++ (if negb (String.eqb directory "") && negb (os.path_exists (env_fs e) directory)
        then [CPrint ("Creating directory: " +:+ directory); CMakedirs directory]
        else [])
    ++ match fst (ensure_directory target e) with
       | Ok _ => exporting df target kwargs
       | Raise _ => []
       end.
Proof.
  cbv zeta. rewrite write_parts.
  destruct (ensure_directory_cases target e)
    as [[Hskip ->] | (Hd & Hmissing & [(fs' & _ & ->) | (err & _ & ->)])];
    cbn [fst snd].
  - assert (negb (String.eqb (posixpath.dirname target) "")
            && negb (os.path_exists (env_fs e) (posixpath.dirname target)) = false) as ->.
    { destruct Hskip as [-> | ->]; [done|]. apply andb_false_r. }
    destruct (export_part_cases df target kwargs e)
      as [(text & loc & _ & _ & _ & ->) | (cause & ->)]; done.
  - rewrite Hmissing. apply String.eqb_neq in Hd. rewrite Hd. cbn [negb andb].
    match goal with |- context [export_part df target kwargs ?e1] =>
      destruct (export_part_cases df target kwargs e1)
        as [(text & loc & _ & _ & _ & ->) | (cause & ->)] end;
      cbn [snd env_calls]; by rewrite <- app_assoc.
  - rewrite Hmissing. apply String.eqb_neq in Hd. rewrite Hd. cbn [negb andb snd env_calls].
    by rewrite app_nil_r.
Qed.

(** Writing into a missing folder, then again: four calls, then two. *)
Lemma csv_write_call_log_witness :
  let e1 := snd (@_CsvWriter.write plain_csv.library _SqlReader.mock_frame
                   "out/data.csv" ∅ empty_env) in
  env_calls e1
  = [CPrint "Creating directory: out"; CMakedirs "out"]
    ++ exporting _SqlReader.mock_frame "out/data.csv" ∅
  ∧ env_calls (snd (@_CsvWriter.write plain_csv.library _SqlReader.mock_frame
                      "out/data.csv" ∅ e1))
    = env_calls e1 ++ exporting _SqlReader.mock_frame "out/data.csv" ∅.
Proof.
  intros e1. split.
  - subst e1. rewrite (@csv_write_call_log plain_csv.library). vm_compute. reflexivity.
  - rewrite (@csv_write_call_log plain_csv.library). subst e1. vm_compute. reflexivity.
Defined.
